(** * OMR sheet scoring: a shallow embedding of [app/omr_processor.py]

    The embedding follows [OMRProcessor.process_omr_sheet] statement by
    statement.  The OpenCV primitives the method calls are an interface
    ([OpenCV] below); Python exceptions are an error monad whose handler
    is the method's [except Exception] clause; attribute access on the
    imported [imutils] package is a lookup in the names that package
    binds; the answer key is a finite map from Python keys to Python
    values; the returned percentage is a binary64 float computed with the
    kernel's primitive floats. *)

From Stdlib Require Import ZArith QArith List Lia PrimFloat Uint63.
From stdpp Require Import base gmap strings list pretty.
Import ListNotations.

Local Open Scope Z_scope.

(** ** Python exceptions *)

Module Py.

(** The exception classes the method's body can raise. *)
Inductive exn : Type :=
| TypeError           (* np.frombuffer on a non-buffer, or subscripting None *)
| CvError             (* cv2.error raised inside an OpenCV call *)
| ZeroDivisionError   (* w / float(h) with h = 0 *)
| AttributeError      (* a name the imutils package does not bind *)
| ValueError.         (* unpacking an empty zip inside imutils sort_contours *)

Definition M (A : Type) : Type := (exn + A)%type.

Definition ret {A} (a : A) : M A := inr a.
Definition raise {A} (e : exn) : M A := inl e.
Definition bind {A B} (m : M A) (k : A -> M B) : M B :=
  match m with
  | inl e => inl e
  | inr a => k a
  end.

End Py.
Import Py.

Notation "x <- m ;; k" := (Py.bind m (fun x => k))
  (at level 20, m at level 99, k at level 200).

#[global] Instance exn_eq_dec : EqDecision exn.
Proof. solve_decision. Defined.

(** ** Python values that reach the method *)

(** The [image_bytes] argument: a bytes object, or (as
    [utils.process_images_batch] passes) a path string. *)
Inductive pyobj : Type :=
| PyBytes (b : list Byte.byte)
| PyStr (s : string).

(** Keys of the answer-key dict: [1] and ["1"] are different keys. *)
Inductive pykey : Type :=
| KInt (n : Z)
| KStr (s : string).

(** Values of the answer-key dict, as [json.load] builds them: null,
    true/false, integer, real, string, and arrays and objects, whose
    contents no statement of the method reads. *)
Inductive pyval : Type :=
| VNone
| VBool (b : bool)
| VInt (n : Z)
| VFloat (x : float)
| VStr (s : string)
| VList
| VDict.

#[global] Instance pykey_eq_dec : EqDecision pykey.
Proof. solve_decision. Defined.

#[global] Instance pykey_countable : Countable pykey :=
  inj_countable'
    (fun k => match k with KInt n => inl n | KStr s => inr s end)
    (fun x => match x with inl n => KInt n | inr s => KStr s end)
    (fun k => match k with KInt _ => eq_refl | KStr _ => eq_refl end).

(** [d.get(k)]: the value, or [None] when the key is absent. *)
Definition dict_get (d : gmap pykey pyval) (k : pykey) : pyval :=
  default VNone (d !! k).

(** [str(n)] for a non-negative int. *)
Definition str (n : nat) : string := pretty n.

(** [np.frombuffer(image_bytes, np.uint8)]: a str has no buffer interface. *)
Definition np_frombuffer (image_bytes : pyobj) : M (list Byte.byte) :=
  match image_bytes with
  | PyBytes b => ret b
  | PyStr _ => raise TypeError
  end.

(** [np.arange(0, stop, step)] for non-negative ints. *)
Definition np_arange (stop step : nat) : list nat :=
  List.map (fun k => (k * step)%nat) (seq 0 ((stop + step - 1) / step)%nat).

(** [enumerate(l, start)]. *)
Fixpoint enumerate_from {A} (start : nat) (l : list A) : list (nat * A) :=
  match l with
  | [] => []
  | a :: l' => (start, a) :: enumerate_from (S start) l'
  end.

Definition enumerate {A} (l : list A) : list (nat * A) := enumerate_from 0 l.

(** [l[a:b]] for non-negative [a], [b]. *)
Definition slice {A} (l : list A) (a b : nat) : list A :=
  firstn (b - a) (skipn a l).

(** [w / float(h)].  The quotient is kept exact: the method only compares
    it with 0.5 and 1.5, both binary64 values, and for 32-bit [w], [h] the
    rounded quotient lies on the same side of them as the exact one. *)
Definition truediv (w h : Z) : M Q :=
  if h =? 0 then raise ZeroDivisionError else ret (inject_Z w / inject_Z h)%Q.

Definition Qlt_bool (a b : Q) : bool := negb (Qle_bool b a).

(** [(a / b) * 100] on ints: true division, then a float product. *)
Definition float_of_int (n : Z) : float := PrimFloat.of_uint63 (Uint63.of_Z n).

Definition percent (correct total_questions : Z) : float :=
  PrimFloat.mul (PrimFloat.div (float_of_int correct) (float_of_int total_questions))
                (float_of_int 100).

(** [j == v] for a bubble index [j]: Python compares an int with an int, a
    bool (an int subclass: False is 0, True is 1) or a float by value, and
    with None, a str, a list or a dict it is False.  The index is far
    below 2^53, so its float is exact. *)
Definition int_eq (j : nat) (v : pyval) : bool :=
  match v with
  | VInt n => Z.of_nat j =? n
  | VBool b => Z.of_nat j =? (if b then 1 else 0)
  | VFloat x => PrimFloat.eqb (float_of_int (Z.of_nat j)) x
  | VNone | VStr _ | VList | VDict => false
  end.

(** ** The imutils package after [import imutils] *)

(** The names the statement [import imutils] makes attributes of the
    package: its [__init__] sets [__version__] and imports names from its
    submodules [convenience] and [meta] only.  A submodule such as
    [contours] becomes an attribute only once something imports
    [imutils.contours], and no module of the repository does. *)
Definition imutils_names : list string :=
  ["__version__"; "convenience"; "meta";
   "translate"; "rotate"; "rotate_bound"; "resize"; "skeletonize";
   "opencv2matplotlib"; "url_to_image"; "auto_canny"; "grab_contours";
   "is_cv2"; "is_cv3"; "is_cv4"; "check_opencv_version";
   "build_montages"; "adjust_brightness_contrast"; "find_function"]%string.

(** [imutils.<name>]: the attribute, or AttributeError. *)
Definition imutils_getattr (name : string) : M unit :=
  if existsb (String.eqb name) imutils_names then ret tt
  else raise AttributeError.

(** ** The OpenCV interface *)

Class OpenCV : Type := {
  Image : Type;      (* a decoded BGR image *)
  Gray : Type;       (* a luminance plane *)
  Binary : Type;     (* a thresholded plane *)
  Contour : Type;
  (* cv2.imdecode(nparr, cv2.IMREAD_COLOR): raises, returns None, or decodes *)
  imdecode : list Byte.byte -> M (option Image);
  (* cv2.cvtColor(image, cv2.COLOR_BGR2GRAY) *)
  cvtColor : Image -> Gray;
  (* cv2.adaptiveThreshold(gray, 255, GAUSSIAN_C, BINARY_INV, blockSize, C) *)
  adaptiveThreshold : Gray -> Z -> Z -> Binary;
  (* grab_contours(cv2.findContours(thresh.copy(), RETR_EXTERNAL, ...)) *)
  findContours : Binary -> list Contour;
  (* cv2.boundingRect(c) = (x, y, w, h) *)
  boundingRect : Contour -> Z * Z * Z * Z;
  (* cv2.contourArea(c) *)
  contourArea : Contour -> Q;
  (* countNonZero(bitwise_and(thresh, thresh, mask = c drawn filled)) *)
  countNonZero_masked : Binary -> Contour -> Z
}.

(** ** Results *)

(** The two dict shapes the method returns: [{'error': msg}] and
    [{'total_questions', 'correct', 'percentage', 'error': None}]. *)
Inductive result : Type :=
| ErrorResult (error : string)
| ScoreResult (total_questions : Z) (correct : Z) (percentage : float).

Definition is_score (r : result) : bool :=
  match r with
  | ScoreResult _ _ _ => true
  | ErrorResult _ => false
  end.

Definition decode_failed : string := "Failed to decode image."%string.

Definition detection_failed (found : nat) : string :=
  String.append "Bubble detection failed (found "%string
    (String.append (str found)
       "). The sample images are not compatible with this CV approach."%string).

Definition critical_error : string :=
  "A critical error occurred during image processing."%string.

(** ** The processor object *)

Record OMRProcessor `{OpenCV} : Type := {
  debug : bool;
  processed_image_for_debug : option Image
}.

(** ** [OMRProcessor.process_omr_sheet] *)

Module OMR.
Section Processor.

Context `{cv : OpenCV}.

(** *** Candidate filter (the loop over [contours]) *)

Definition rect_w (c : Contour) : Z := let '(_, _, w, _) := boundingRect c in w.
Definition rect_h (c : Contour) : Z := let '(_, _, _, h) := boundingRect c in h.

(** The two nested [if]s of the loop body, given the aspect ratio. *)
Definition bubble_like (c : Contour) (ar : Q) : bool :=
  let '(x, y, w, h) := boundingRect c in
  if (10 <=? w) && (10 <=? h) && Qle_bool (1 # 2) ar && Qle_bool ar (3 # 2)
  then Qlt_bool (50 # 1) (contourArea c)
  else false.

Fixpoint filter_contours (contours question_cnts : list Contour)
  : M (list Contour) :=
  match contours with
  | [] => ret question_cnts
  | c :: contours' =>
      let '(x, y, w, h) := boundingRect c in
      ar <- truediv w h ;;
      filter_contours contours'
        (if bubble_like c ar then question_cnts ++ [c] else question_cnts)
  end.

(** *** [sort_contours] of [imutils/contours.py] *)

Inductive sort_method : Type := LeftToRight | TopToBottom.

(** The sort key [b[1][i]]: x of the bounding box, or y for top-to-bottom. *)
Definition sort_key (method : sort_method) (c : Contour) : Z :=
  let '(x, y, w, h) := boundingRect c in
  match method with
  | LeftToRight => x
  | TopToBottom => y
  end.

(** [sorted(..., key=...)] is stable: an element goes before the first
    element of the sorted tail whose key is not smaller. *)
Fixpoint insert_by (key : Contour -> Z) (c : Contour) (l : list Contour)
  : list Contour :=
  match l with
  | [] => [c]
  | d :: l' => if key c <=? key d then c :: d :: l' else d :: insert_by key c l'
  end.

Fixpoint sorted (key : Contour -> Z) (l : list Contour) : list Contour :=
  match l with
  | [] => []
  | c :: l' => insert_by key c (sorted key l')
  end.

(** Returns [(cnts, boundingBoxes)]; unpacking the zip of an empty list
    raises. *)
Definition sort_contours (cnts : list Contour) (method : sort_method)
  : M (list Contour * list (Z * Z * Z * Z)) :=
  match cnts with
  | [] => raise ValueError
  | _ =>
      let cnts' := sorted (sort_key method) cnts in
      ret (cnts', List.map boundingRect cnts')
  end.

(** *** The loops over rows, question blocks and bubbles *)

Definition total_questions : Z := 100.
Definition options_per_question : nat := 4.

(** The loop over [enumerate(cnts)]: [bubbled] is [None] or [(total, j)]. *)
Fixpoint bubble_loop (thresh : Binary) (cnts : list (nat * Contour))
    (bubbled : option (Z * nat)) : option (Z * nat) :=
  match cnts with
  | [] => bubbled
  | (j, c) :: cnts' =>
      let total := countNonZero_masked thresh c in
      bubble_loop thresh cnts'
        (match bubbled with
         | None => Some (total, j)
         | Some (best, _) => if total >? best then Some (total, j) else bubbled
         end)
  end.

(** [bubbled[1]]. *)
Definition subscript1 (bubbled : option (Z * nat)) : M nat :=
  match bubbled with
  | None => raise TypeError
  | Some (_, j) => ret j
  end.

(** Lines 60-72: the body of the loop over [col], after [cnts] is cut.
    The [and] is short-circuit: [bubbled[1]] is evaluated only when the
    key holds a value for the question. *)
Definition score_question (thresh : Binary) (answer_key : gmap pykey pyval)
    (question_num : nat) (cnts : list Contour) (correct : Z) : M Z :=
  let bubbled := bubble_loop thresh (enumerate cnts) None in
  let correct_answer_idx := dict_get answer_key (KStr (str question_num)) in
  match correct_answer_idx with
  | VNone => ret correct
  | _ =>
      j <- subscript1 bubbled ;;
      ret (if int_eq j correct_answer_idx then correct + 1 else correct)
  end.

(** [for col in range(5)]. *)
Fixpoint col_loop (thresh : Binary) (answer_key : gmap pykey pyval)
    (q_row : nat) (row_contours : list Contour)
    (cols : list nat) (correct : Z) : M Z :=
  match cols with
  | [] => ret correct
  | col :: cols' =>
      let question_num := (col * 20 + q_row + 1)%nat in
      let cnts := slice row_contours (col * options_per_question)
                        ((col + 1) * options_per_question) in
      correct' <- score_question thresh answer_key question_num cnts correct ;;
      col_loop thresh answer_key q_row row_contours cols' correct'
  end.

(** [for (q_row, i) in enumerate(np.arange(0, len(question_cnts), 20))].
    Line 52 reads [imutils.contours] before it calls the sort. *)
Fixpoint row_loop (thresh : Binary) (answer_key : gmap pykey pyval)
    (question_cnts : list Contour) (rows : list (nat * nat))
    (correct : Z) : M Z :=
  match rows with
  | [] => ret correct
  | (q_row, i) :: rows' =>
      if (20 <=? q_row)%nat then ret correct
      else
        _ <- imutils_getattr "contours" ;;
        row <- sort_contours (slice question_cnts i (i + 20)) LeftToRight ;;
        correct' <- col_loop thresh answer_key q_row (fst row) (seq 0 5) correct ;;
        row_loop thresh answer_key question_cnts rows' correct'
  end.

(** Lines 37-75: the method from the count check on, given the filtered
    candidates.  Line 41 reads [imutils.contours] before it calls the
    sort. *)
Definition score_candidates (thresh : Binary) (answer_key : gmap pykey pyval)
    (question_cnts : list Contour) : M result :=
  if (length question_cnts <? 400)%nat
  then ret (ErrorResult (detection_failed (length question_cnts)))
  else
    _ <- imutils_getattr "contours" ;;
    top_down <- sort_contours question_cnts TopToBottom ;;
    let question_cnts := fst top_down in
    correct <- row_loop thresh answer_key question_cnts
                 (enumerate (np_arange (length question_cnts) 20)) 0 ;;
    let score := percent correct total_questions in
    ret (ScoreResult total_questions correct score).

(** The body of the [try] block. *)
Definition process_body (image_bytes : pyobj) (answer_key : gmap pykey pyval)
  : M result :=
  nparr <- np_frombuffer image_bytes ;;
  image <- imdecode nparr ;;
  match image with
  | None => ret (ErrorResult decode_failed)
  | Some image =>
      let gray := cvtColor image in
      let thresh := adaptiveThreshold gray 21 10 in
      let contours := findContours thresh in
      _ <- imutils_getattr "grab_contours" ;;
      question_cnts <- filter_contours contours [] ;;
      score_candidates thresh answer_key question_cnts
  end.

(** [except Exception: return {'error': ...}]. *)
Definition except_Exception (m : M result) : result :=
  match m with
  | inl _ => ErrorResult critical_error
  | inr r => r
  end.

(** The method: the processor object is read by no statement and written
    by none. *)
Definition process_omr_sheet (self : OMRProcessor) (image_bytes : pyobj)
    (answer_key : gmap pykey pyval) : OMRProcessor * result :=
  (self, except_Exception (process_body image_bytes answer_key)).

End Processor.

(** *** Notions used to state the properties *)

Section Derived.

Context `{cv : OpenCV}.

(** The three size, aspect and area tests on one contour. *)
Definition keeps (c : Contour) : bool :=
  bubble_like c (inject_Z (rect_w c) / inject_Z (rect_h c))%Q.

Definition thresh_of (image : Image) : Binary :=
  adaptiveThreshold (cvtColor image) 21 10.

(** [m] is the greatest of [fills] and [j] the first index holding it. *)
Definition first_max (fills : list Z) (m : Z) (j : nat) : Prop :=
  fills !! j = Some m /\
  (forall k x, fills !! k = Some x -> x <= m) /\
  (forall k x, (k < j)%nat -> fills !! k = Some x -> x < m).

Definition fills_of (thresh : Binary) (cnts : list Contour) : list Z :=
  List.map (countNonZero_masked thresh) cnts.



End Derived.
End OMR.

(** ** A synthetic OpenCV, for running the method on concrete sheets *)

Module Synthetic.

(** A detected region with its measurements given directly. *)
Record Blob : Type := {
  blob_x : Z; blob_y : Z; blob_w : Z; blob_h : Z;
  blob_area : Q;
  blob_fill : Z
}.

(** Every buffer that decodes yields [sheet]; the empty buffer makes
    imdecode raise, and a buffer starting with a zero byte is not an
    image. *)
Definition cv (sheet : list Blob) : OpenCV := {|
  Image := list Blob;
  Gray := list Blob;
  Binary := list Blob;
  Contour := Blob;
  imdecode := fun nparr =>
    match nparr with
    | [] => raise CvError
    | Byte.x00 :: _ => ret None
    | _ => ret (Some sheet)
    end;
  cvtColor := fun image => image;
  adaptiveThreshold := fun gray _ _ => gray;
  findContours := fun thresh => thresh;
  boundingRect := fun c => (blob_x c, blob_y c, blob_w c, blob_h c);
  contourArea := blob_area;
  countNonZero_masked := fun _ c => blob_fill c
|}.

(** As [cv], with two sheets: a buffer whose first byte is 0x01 decodes
    to [sheet_a], any other image buffer to [sheet_b]. *)
Definition cv_two (sheet_a sheet_b : list Blob) : OpenCV := {|
  Image := list Blob;
  Gray := list Blob;
  Binary := list Blob;
  Contour := Blob;
  imdecode := fun nparr =>
    match nparr with
    | [] => raise CvError
    | Byte.x00 :: _ => ret None
    | Byte.x01 :: _ => ret (Some sheet_a)
    | _ => ret (Some sheet_b)
    end;
  cvtColor := fun image => image;
  adaptiveThreshold := fun gray _ _ => gray;
  findContours := fun thresh => thresh;
  boundingRect := fun c => (blob_x c, blob_y c, blob_w c, blob_h c);
  contourArea := blob_area;
  countNonZero_masked := fun _ c => blob_fill c
|}.

Definition processor (sheet : list Blob) : @OMRProcessor (cv sheet) :=
  {| debug := false; processed_image_for_debug := None |}.

Definition processor_two (sheet_a sheet_b : list Blob)
  : @OMRProcessor (cv_two sheet_a sheet_b) :=
  {| debug := false; processed_image_for_debug := None |}.

(** A 20 x 20 pixel bubble in physical row [r], physical column [k]. *)
Definition bubble (fill : nat -> nat -> Z) (r k : nat) : Blob :=
  {| blob_x := 20 + 30 * Z.of_nat k; blob_y := 20 + 30 * Z.of_nat r;
     blob_w := 20; blob_h := 20; blob_area := 300 # 1;
     blob_fill := fill r k |}.

(** A full sheet of 20 rows of 20 bubbles, evenly spaced, listed
    bottom-up and right-to-left. *)
Definition sheet_of (fill : nat -> nat -> Z) : list Blob :=
  rev (flat_map (fun r => List.map (bubble fill r) (seq 0 20)) (seq 0 20)).

(** The question printed at physical row [r], column [k], and the option
    index of that column. *)
Definition question_at (r k : nat) : nat := ((k / 4) * 20 + r + 1)%nat.
Definition option_at (k : nat) : nat := (k mod 4)%nat.

(** Option [choice q] of every question [q] is filled (300 pixels), the
    others show their outline only (40 pixels). *)
Definition marked (choice : nat -> nat) (r k : nat) : Z :=
  if (option_at k =? choice (question_at r k))%nat then 300 else 40.

Definition image_bytes : pyobj := PyBytes [Byte.x89; Byte.x50].

(** String-keyed answer key over questions [1..n]. *)
Definition key_of (n : nat) (answer : nat -> Z) : gmap pykey pyval :=
  list_to_map (List.map (fun q => (KStr (str q), VInt (answer q))) (seq 1 n)).

(** The same key with int keys. *)
Definition int_key_of (n : nat) (answer : nat -> Z) : gmap pykey pyval :=
  list_to_map (List.map (fun q => (KInt (Z.of_nat q), VInt (answer q))) (seq 1 n)).

(** Every question answered with option [q mod 4]. *)
Definition sheet_answered : list Blob := sheet_of (marked (fun q => q mod 4)%nat).

(** Nothing filled in: every bubble shows its 40-pixel outline. *)
Definition sheet_blank : list Blob := sheet_of (fun _ _ => 40).


(** One bubble among a speck, a rule line, a thin ring and a tall stroke. *)
Definition a_bubble : Blob :=
  {| blob_x := 20; blob_y := 20; blob_w := 20; blob_h := 20;
     blob_area := 300 # 1; blob_fill := 300 |}.
Definition a_speck : Blob :=
  {| blob_x := 60; blob_y := 20; blob_w := 5; blob_h := 5;
     blob_area := 20 # 1; blob_fill := 25 |}.
Definition a_rule : Blob :=
  {| blob_x := 20; blob_y := 60; blob_w := 100; blob_h := 12;
     blob_area := 1100 # 1; blob_fill := 1200 |}.
Definition a_ring : Blob :=
  {| blob_x := 20; blob_y := 90; blob_w := 20; blob_h := 20;
     blob_area := 30 # 1; blob_fill := 40 |}.
Definition a_stroke : Blob :=
  {| blob_x := 60; blob_y := 90; blob_w := 12; blob_h := 30;
     blob_area := 200 # 1; blob_fill := 210 |}.
Definition sheet_mixed : list Blob :=
  [a_speck; a_bubble; a_rule; a_ring; a_stroke].





(** A second image buffer, which [cv_two] decodes to its first sheet. *)
Definition other_bytes : pyobj := PyBytes [Byte.x01; Byte.x50].

End Synthetic.

(** ** The callers of the method: [main.py] and [utils.py] *)

Module Callers.
Import OMR.

(** [k in result] for the two dict shapes the method returns. *)
Definition has_key (k : string) (r : result) : bool :=
  match r with
  | ErrorResult _ => String.eqb k "error"
  | ScoreResult _ _ _ =>
      String.eqb k "total_questions" || String.eqb k "correct" ||
      String.eqb k "percentage" || String.eqb k "error"
  end.

(** [result['error']] and [result.get('error')]: the message, or None in
    a score result. *)
Definition get_error (r : result) : option string :=
  match r with
  | ErrorResult e => Some e
  | ScoreResult _ _ _ => None
  end.

(** An optional string inside an f-string. *)
Definition fmt_opt (o : option string) : string :=
  match o with
  | Some s => s
  | None => "None"%string
  end.

(** A result dict after [result['filename'] = ...] (and, in the batch
    helper, [result['processed_at'] = ...]). *)
Record Entry : Type := {
  entry_result : result;
  filename : string;
  processed_at : option string
}.

(** What [main] puts on the page. *)
Inductive ui_event `{OpenCV} : Type :=
| st_success (msg : string)
| st_image (image : Image) (caption : string)
| st_error (msg : string).

(** The line the batch helper logs for a path the method rejected. *)
Definition rejected_line (image_path : string) : string :=
  String.append "Error processing "
    (String.append image_path (String.append ": " critical_error)).

(** The exception [create_batch_report] lets out. *)
Inductive report_exn : Type := KeyError (key : string).

(** The report dict of [create_batch_report]. *)
Record BatchReport : Type := {
  total_sheets : nat;
  successfully_processed : nat;
  average_score : float;
  median_score : float;
  std_deviation : float;
  min_score : float;
  max_score : float;
  excellent : nat;       (* 'excellent (90-100%)' *)
  good : nat;            (* 'good (80-89%)' *)
  average : nat;         (* 'average (70-79%)' *)
  below_average : nat;   (* 'below_average (60-69%)' *)
  poor : nat;            (* 'poor (<60%)' *)
  detailed_results : list Entry;
  generated_at : string
}.

Inductive report_result : Type :=
| ReportError (error : string)
| Report (report : BatchReport).

Section CallerDefs.

Context `{cv : OpenCV}.

(** [OMRProcessor.__init__]. *)
Definition init (debug_arg : bool) : OMRProcessor :=
  {| debug := debug_arg; processed_image_for_debug := None |}.

(** [processor.debug = value]. *)
Definition set_debug (processor : OMRProcessor) (value : bool) : OMRProcessor :=
  {| debug := value;
     processed_image_for_debug := processed_image_for_debug processor |}.

(** The library calls of the callers. *)
Variable basename : string -> string.        (* os.path.basename *)
Variable now_isoformat : nat -> string.      (* datetime.now().isoformat(), by loop index *)
Variable exn_str : exn -> string.            (* str(e) *)
Variable format_2f : float -> string.        (* format(x, '.2f') *)
Variable np_mean np_median np_std : list float -> float.

(** *** [utils.process_images_batch] *)

Definition batch_state : Type := (OMRProcessor * list Entry * list string)%type.

(** The [try] block of one iteration. *)
Definition batch_try (answer_key : gmap pykey pyval)
    (progress_callback : option (nat -> nat -> string -> M unit))
    (n i : nat) (image_path : string) (st : batch_state) : M batch_state :=
  let '(processor, results, log) := st in
  _ <- match progress_callback with
       | Some callback => callback i n image_path
       | None => ret tt
       end ;;
  let '(processor, result) :=
    process_omr_sheet processor (PyStr image_path) answer_key in
  if negb (has_key "error" result)
  then ret (processor,
            results ++ [{| entry_result := result;
                           filename := basename image_path;
                           processed_at := Some (now_isoformat i) |}],
            log)
  else ret (processor, results,
            log ++ [String.append "Error processing "
                      (String.append image_path
                         (String.append ": " (fmt_opt (get_error result))))]).

Fixpoint batch_loop (answer_key : gmap pykey pyval)
    (progress_callback : option (nat -> nat -> string -> M unit))
    (n : nat) (items : list (nat * string)) (st : batch_state) : batch_state :=
  match items with
  | [] => st
  | (i, image_path) :: items' =>
      match batch_try answer_key progress_callback n i image_path st with
      | inr st' => batch_loop answer_key progress_callback n items' st'
      | inl e =>
          let '(processor, results, log) := st in
          batch_loop answer_key progress_callback n items'
            (processor, results,
             log ++ [String.append "Unexpected error processing "
                       (String.append image_path
                          (String.append ": " (exn_str e)))])
      end
  end.

(** Returns the results; the lines sent to [logger.error] come with them. *)
Definition process_images_batch (image_paths : list string)
    (answer_key : gmap pykey pyval) (processor : OMRProcessor)
    (progress_callback : option (nat -> nat -> string -> M unit))
  : list Entry * list string :=
  let '(_, results, log) :=
    batch_loop answer_key progress_callback (length image_paths)
      (enumerate image_paths) (processor, [], []) in
  (results, log).

(** *** [utils.create_batch_report] *)

(** [r['percentage']]. *)
Definition get_percentage (r : Entry) : report_exn + float :=
  match entry_result r with
  | ScoreResult _ _ p => inr p
  | ErrorResult _ => inl (KeyError "percentage")
  end.

(** [r['correct']]. *)
Definition get_correct (r : Entry) : report_exn + Z :=
  match entry_result r with
  | ScoreResult _ c _ => inr c
  | ErrorResult _ => inl (KeyError "correct")
  end.

(** A list comprehension whose element expression can raise. *)
Fixpoint comprehension {A B E} (f : A -> E + B) (l : list A) : E + list B :=
  match l with
  | [] => inr []
  | a :: l' =>
      match f a with
      | inl e => inl e
      | inr b =>
          match comprehension f l' with
          | inl e => inl e
          | inr bs => inr (b :: bs)
          end
      end
  end.

(** [min(scores)] and [max(scores)] on a non-empty list: a later item
    replaces the current one when it compares strictly below (above). *)
Definition py_min (first : float) (rest : list float) : float :=
  fold_left (fun cur s => if PrimFloat.ltb s cur then s else cur) rest first.

Definition py_max (first : float) (rest : list float) : float :=
  fold_left (fun cur s => if PrimFloat.ltb cur s then s else cur) rest first.

Definition count (P : float -> bool) (scores : list float) : nat :=
  length (List.filter P scores).

Definition create_batch_report (results : list Entry) : report_exn + report_result :=
  match results with
  | [] => inr (ReportError "No results to analyze")
  | _ =>
      match comprehension get_percentage results with
      | inl e => inl e
      | inr scores =>
          match comprehension get_correct results with
          | inl e => inl e
          | inr correct_answers =>
              match scores with
              | [] => inr (ReportError "No results to analyze")
              | first :: rest =>
                  inr (Report {|
                    total_sheets := length results;
                    successfully_processed := length results;
                    average_score := np_mean scores;
                    median_score := np_median scores;
                    std_deviation := np_std scores;
                    min_score := py_min first rest;
                    max_score := py_max first rest;
                    excellent := count (fun s => PrimFloat.leb (float_of_int 90) s) scores;
                    good := count (fun s => PrimFloat.leb (float_of_int 80) s
                                            && PrimFloat.ltb s (float_of_int 90)) scores;
                    average := count (fun s => PrimFloat.leb (float_of_int 70) s
                                               && PrimFloat.ltb s (float_of_int 80)) scores;
                    below_average := count (fun s => PrimFloat.leb (float_of_int 60) s
                                                     && PrimFloat.ltb s (float_of_int 70)) scores;
                    poor := count (fun s => PrimFloat.ltb s (float_of_int 60)) scores;
                    detailed_results := results;
                    generated_at := now_isoformat 0 |})
              end
          end
      end
  end.

(** *** The processing block of [main.main] *)

Definition main_state : Type :=
  (OMRProcessor * list Entry * list ui_event)%type.

(** One iteration of [for uploaded_file in uploaded_files], on the file's
    name and bytes. *)
Definition main_step (answer_key : gmap pykey pyval)
    (st : main_state) (uploaded_file : string * list Byte.byte) : main_state :=
  let '(processor, results, page) := st in
  let '(name, value) := uploaded_file in
  let '(processor, result) :=
    process_omr_sheet processor (PyBytes value) answer_key in
  match get_error result with
  | None =>
      let page :=
        page ++ [st_success
                   (String.append name
                      (String.append ": Score = "
                         (String.append
                            (format_2f match result with
                                       | ScoreResult _ _ p => p
                                       | ErrorResult _ => float_of_int 0
                                       end) "%")))] in
      let page :=
        match debug processor, processed_image_for_debug processor with
        | true, Some image =>
            page ++ [st_image image (String.append "Debug: " name)]
        | _, _ => page
        end in
      (processor,
       results ++ [{| entry_result := result; filename := name;
                      processed_at := None |}],
       page)
  | Some error =>
      (processor, results,
       page ++ [st_error (String.append "Failed to process "
                            (String.append name (String.append ": " error)))])
  end.

(** [main] from the button on: the cached processor was built by
    [__init__], its [debug] is set from the session, and the loop runs
    over the uploaded files.  Returns [st.session_state.results] and the
    page. *)
Definition main_process (cached_debug debug_mode : bool)
    (uploaded_files : list (string * list Byte.byte))
    (answer_key : gmap pykey pyval) : list Entry * list ui_event :=
  let processor := set_debug (init cached_debug) debug_mode in
  let '(_, results, page) :=
    fold_left (main_step answer_key) uploaded_files (processor, [], []) in
  (results, page).

End CallerDefs.
End Callers.

Import OMR.

(** * Properties of the embedding *)

(** ** The error monad *)

Section MonadFacts.

Lemma bind_ret {A B} (a : A) (k : A -> M B) : Py.bind (Py.ret a) k = k a.
Proof. reflexivity. Qed.

Lemma bind_raise {A B} (e : exn) (k : A -> M B) : Py.bind (Py.raise e) k = Py.raise e.
Proof. reflexivity. Qed.

Lemma bind_assoc {A B C} (m : M A) (k : A -> M B) (k' : B -> M C) :
  Py.bind (bind m k) k' = bind m (fun a => Py.bind (k a) k').
Proof. destruct m; reflexivity. Qed.

End MonadFacts.

(** ** The candidate filter *)

Section FilterFacts.

Context `{cv : OpenCV}.

Lemma filter_contours_acc (contours acc : list Contour) :
  Forall (fun c => rect_h c <> 0) contours ->
  filter_contours contours acc = inr (acc ++ List.filter keeps contours).
Proof.
  intros Hh. revert acc.
  induction Hh as [|c contours Hc _ IH]; intros acc; simpl.
  - by rewrite app_nil_r.
  - unfold keeps, rect_w, rect_h in *.
    destruct (boundingRect c) as [[[x y] w] h] eqn:Hrect.
    unfold truediv. destruct (Z.eqb_spec h 0) as [->|_]; [done|].
    simpl. rewrite IH.
    destruct (bubble_like c _); [by rewrite <- app_assoc | done].
Qed.

Lemma keeps_spec (c : Contour) :
  keeps c = true <->
  10 <= rect_w c /\ 10 <= rect_h c /\
  (1 # 2 <= inject_Z (rect_w c) / inject_Z (rect_h c))%Q /\
  (inject_Z (rect_w c) / inject_Z (rect_h c) <= 3 # 2)%Q /\
  (50 # 1 < contourArea c)%Q.
Proof.
  unfold keeps, bubble_like, rect_w, rect_h, Qlt_bool.
  destruct (boundingRect c) as [[[x y] w] h].
  set (ar := (inject_Z w / inject_Z h)%Q).
  destruct (Z.leb_spec 10 w), (Z.leb_spec 10 h); simpl;
    try (split; [discriminate | lia]).
  destruct (Qle_bool (1 # 2) ar) eqn:Hlo; simpl.
  2: { split; [discriminate|]. intros (_ & _ & Hle & _).
       apply Qle_bool_iff in Hle. congruence. }
  destruct (Qle_bool ar (3 # 2)) eqn:Hhi; simpl.
  2: { split; [discriminate|]. intros (_ & _ & _ & Hle & _).
       apply Qle_bool_iff in Hle. congruence. }
  apply Qle_bool_iff in Hlo, Hhi.
  rewrite negb_true_iff.
  split.
  - intros Harea. repeat split; try done.
    apply Qnot_le_lt. intros Hle. apply Qle_bool_iff in Hle. congruence.
  - intros (_ & _ & _ & _ & Hlt).
    destruct (Qle_bool (contourArea c) (50 # 1)) eqn:Hle; [|done].
    apply Qle_bool_iff in Hle. exfalso. by apply (Qlt_not_le _ _ Hlt).
Qed.

Lemma filter_contours_zero (contours acc : list Contour) :
  Exists (fun c => rect_h c = 0) contours ->
  filter_contours contours acc = inl ZeroDivisionError.
Proof.
  revert acc. induction contours as [|c contours IH]; intros acc Hzero.
  { by apply Exists_nil in Hzero. }
  apply Exists_cons in Hzero. simpl.
  destruct (boundingRect c) as [[[x y] w] h] eqn:Hrect.
  unfold truediv. destruct (Z.eqb_spec h 0) as [->|Hh]; [done|].
  simpl. apply IH. destruct Hzero as [Hc|Hrest]; [|done].
  unfold rect_h in Hc. rewrite Hrect in Hc. done.
Qed.

End FilterFacts.

(** ** The bubble loop picks the first bubble of greatest fill *)

Section BubbleFacts.

Context `{cv : OpenCV}.

Lemma first_max_unique fills m j m' j' :
  first_max fills m j -> first_max fills m' j' -> m = m' /\ j = j'.
Proof.
  intros (Hj & Hle & Hlt) (Hj' & Hle' & Hlt').
  assert (m = m') as <-.
  { pose proof (Hle _ _ Hj'). pose proof (Hle' _ _ Hj). lia. }
  split; [done|].
  destruct (lt_eq_lt_dec j j') as [[Hc|Hc]|Hc]; [|done|].
  - pose proof (Hlt' _ _ Hc Hj). lia.
  - pose proof (Hlt _ _ Hc Hj'). lia.
Qed.

Lemma bubble_loop_Some thresh (seen rest : list Contour) best jb :
  first_max (fills_of thresh seen) best jb ->
  exists m j,
    bubble_loop thresh (enumerate_from (length seen) rest) (Some (best, jb))
      = Some (m, j) /\
    first_max (fills_of thresh (seen ++ rest)) m j.
Proof.
  revert seen best jb.
  induction rest as [|c rest IH]; intros seen best jb Hmax; simpl.
  { exists best, jb. by rewrite app_nil_r. }
  set (total := countNonZero_masked thresh c).
  assert (Hstep : exists best' jb',
    (if total >? best then Some (total, length seen) else Some (best, jb))
      = Some (best', jb') /\
    first_max (fills_of thresh (seen ++ [c])) best' jb').
  { destruct Hmax as (Hj & Hle & Hlt).
    assert (jb < length seen)%nat as Hjb.
    { apply lookup_lt_Some in Hj. unfold fills_of in Hj.
      by rewrite length_map in Hj. }
    unfold fills_of. rewrite map_app. simpl. fold (fills_of thresh seen).
    fold total.
    assert (length (fills_of thresh seen) = length seen) as Hlen
      by (unfold fills_of; by rewrite length_map).
    destruct (Z.gtb_spec total best) as [Hgt|Hngt].
    - exists total, (length seen). split; [done|]. repeat split.
      + rewrite lookup_app_r by lia. by rewrite Hlen, Nat.sub_diag.
      + intros k x Hk. apply lookup_app_Some in Hk as [Hk|[_ Hk]].
        * pose proof (Hle _ _ Hk). lia.
        * destruct (k - _)%nat; simpl in Hk; [|done].
          injection Hk as <-. lia.
      + intros k x Hlt' Hk. rewrite lookup_app_l in Hk by lia.
        pose proof (Hle _ _ Hk). lia.
    - exists best, jb. split; [done|]. repeat split.
      + by rewrite lookup_app_l by lia.
      + intros k x Hk. apply lookup_app_Some in Hk as [Hk|[_ Hk]].
        * by apply (Hle k).
        * destruct (k - _)%nat; simpl in Hk; [|done].
          injection Hk as <-. lia.
      + intros k x Hlt' Hk. rewrite lookup_app_l in Hk by lia.
        by apply (Hlt k). }
  destruct Hstep as (best' & jb' & Heq & Hmax').
  destruct (IH (seen ++ [c]) best' jb' Hmax') as (m & j & Hloop & Hfin).
  exists m, j. split.
  - rewrite Heq. rewrite length_app in Hloop. simpl in Hloop.
    by rewrite Nat.add_1_r in Hloop.
  - by rewrite <- app_assoc in Hfin.
Qed.

(** On a non-empty group the loop ends with the greatest fill and the
    first index that has it. *)
Lemma bubble_loop_first_max thresh (cnts : list Contour) :
  cnts <> [] ->
  exists m j,
    bubble_loop thresh (enumerate cnts) None = Some (m, j) /\
    first_max (fills_of thresh cnts) m j.
Proof.
  destruct cnts as [|c cnts]; [done|]. intros _.
  unfold enumerate. simpl.
  apply (bubble_loop_Some thresh [c] cnts).
  split; [done|]. split.
  - intros [|k] x Hk; simpl in Hk; [|done]. injection Hk as <-. lia.
  - intros k x Hk. lia.
Qed.

End BubbleFacts.

(** ** The question step keeps the first bubble of greatest fill *)

Section StepFacts.

Context `{cv : OpenCV}.

(** Lines 60-72 on a non-empty group: the step adds one exactly when the
    key's value equals the index of the first bubble of greatest fill. *)
Lemma score_question_first_max thresh (answer_key : gmap pykey pyval)
    (question_num : nat) (cnts : list Contour) (correct : Z) :
  cnts <> [] ->
  exists (m : Z) (j : nat),
    first_max (fills_of thresh cnts) m j /\
    score_question thresh answer_key question_num cnts correct =
      inr (if int_eq j (dict_get answer_key (KStr (str question_num)))
           then correct + 1 else correct).
Proof.
  intros Hne.
  destruct (bubble_loop_first_max thresh cnts Hne) as (m & j & Hloop & Hmax).
  exists m, j. split; [done|].
  unfold score_question. rewrite Hloop.
  by destruct (dict_get answer_key _).
Qed.

(** Line 74 in binary64: 7 of 100 is not 7.0 percent. *)
Lemma percent_of_seven :
  PrimFloat.eqb (percent 7 100) (float_of_int 7) = false.
Proof. vm_compute. reflexivity. Qed.

End StepFacts.

(** ** The method in normal form *)

Section ProcessFacts.

Context `{cv : OpenCV}.

Lemma imutils_has_grab_contours : imutils_getattr "grab_contours" = inr tt.
Proof. reflexivity. Qed.

Lemma imutils_lacks_contours {A} :
  forall k : unit -> M A, Py.bind (imutils_getattr "contours") k = inl AttributeError.
Proof. reflexivity. Qed.

(** From the count check on: the detection message below 400 candidates,
    and from 400 on the AttributeError of line 41. *)
Lemma score_candidates_outcome thresh (answer_key : gmap pykey pyval)
    (question_cnts : list Contour) :
  score_candidates thresh answer_key question_cnts =
    if (length question_cnts <? 400)%nat
    then inr (ErrorResult (detection_failed (length question_cnts)))
    else inl AttributeError.
Proof.
  unfold score_candidates. destruct (_ <? _)%nat; [done|].
  apply imutils_lacks_contours.
Qed.

(** The [try] body as a cascade of its fallible steps. *)
Lemma process_body_unfold image_bytes answer_key :
  process_body image_bytes answer_key =
    nparr <- np_frombuffer image_bytes ;;
    image <- imdecode nparr ;;
    match image with
    | None => ret (ErrorResult decode_failed)
    | Some image =>
        question_cnts <- filter_contours (findContours (thresh_of image)) [] ;;
        score_candidates (thresh_of image) answer_key question_cnts
    end.
Proof.
  unfold process_body.
  destruct (np_frombuffer image_bytes) as [e|nparr]; cbn [Py.bind]; [done|].
  destruct (imdecode nparr) as [e|[image|]]; cbn [Py.bind]; [done| |done].
  by rewrite imutils_has_grab_contours.
Qed.


(** ... whose contours have non-zero height. *)
Lemma process_kept (self : OMRProcessor) image_bytes answer_key nparr image :
  np_frombuffer image_bytes = inr nparr ->
  imdecode nparr = inr (Some image) ->
  Forall (fun c => rect_h c <> 0) (findContours (thresh_of image)) ->
  process_body image_bytes answer_key =
    score_candidates (thresh_of image) answer_key
      (List.filter keeps (findContours (thresh_of image))).
Proof.
  intros Hbuf Hdec Hboxes.
  rewrite process_body_unfold, Hbuf. cbn [Py.bind]. rewrite Hdec.
  cbn [Py.bind]. by rewrite filter_contours_acc.
Qed.

Lemma process_few (self : OMRProcessor) image_bytes answer_key nparr image :
  np_frombuffer image_bytes = inr nparr ->
  imdecode nparr = inr (Some image) ->
  Forall (fun c => rect_h c <> 0) (findContours (thresh_of image)) ->
  (length (List.filter keeps (findContours (thresh_of image))) < 400)%nat ->
  snd (process_omr_sheet self image_bytes answer_key) =
    ErrorResult
      (detection_failed (length (List.filter keeps (findContours (thresh_of image))))).
Proof.
  intros Hbuf Hdec Hboxes Hfew.
  unfold process_omr_sheet. cbn [snd].
  rewrite (process_kept self image_bytes answer_key nparr image) by done.
  rewrite score_candidates_outcome.
  by destruct (Nat.ltb_spec (length (List.filter keeps (findContours (thresh_of image)))) 400);
    [|lia].
Qed.

Lemma process_many (self : OMRProcessor) image_bytes answer_key nparr image :
  np_frombuffer image_bytes = inr nparr ->
  imdecode nparr = inr (Some image) ->
  Forall (fun c => rect_h c <> 0) (findContours (thresh_of image)) ->
  (400 <= length (List.filter keeps (findContours (thresh_of image))))%nat ->
  process_body image_bytes answer_key = inl AttributeError /\
  snd (process_omr_sheet self image_bytes answer_key) = ErrorResult critical_error.
Proof.
  intros Hbuf Hdec Hboxes Hmany.
  assert (process_body image_bytes answer_key = inl AttributeError) as Hbody.
  { rewrite (process_kept self image_bytes answer_key nparr image) by done.
    rewrite score_candidates_outcome.
    by destruct (Nat.ltb_spec (length (List.filter keeps (findContours (thresh_of image)))) 400);
      [lia|]. }
  split; [done|]. unfold process_omr_sheet. cbn [snd]. by rewrite Hbody.
Qed.


(** The method returns an error dict on every input. *)
Lemma process_error (self : OMRProcessor) image_bytes answer_key :
  exists msg, snd (process_omr_sheet self image_bytes answer_key) = ErrorResult msg.
Proof.
  unfold process_omr_sheet. cbn [snd]. rewrite process_body_unfold.
  destruct (np_frombuffer image_bytes) as [e|nparr]; cbn [Py.bind];
    [by eexists|].
  destruct (imdecode nparr) as [e|[image|]]; cbn [Py.bind];
    [by eexists| |by eexists].
  destruct (filter_contours _ _) as [e|question_cnts]; cbn [Py.bind];
    [by eexists|].
  rewrite score_candidates_outcome.
  destruct (length question_cnts <? 400)%nat; by eexists.
Qed.


End ProcessFacts.

(** * The claims *)

Section Claims.

Context `{cv : OpenCV}.

(** C8: a detected contour is kept as a bubble candidate exactly when its
    bounding box is at least 10 wide and 10 high, its aspect ratio
    width/height lies in [0.5, 1.5] and its area exceeds 50.  The filter
    returns the kept contours, in detection order, and the rest of the
    method runs on that list alone: a discarded contour is seen by no later
    statement.  Bounding boxes have non-zero height, as OpenCV returns
    them. *)
Theorem filter_contours_spec (image_bytes : pyobj) (answer_key : gmap pykey pyval)
    (nparr : list Byte.byte) (image : Image) :
  np_frombuffer image_bytes = inr nparr ->
  imdecode nparr = inr (Some image) ->
  Forall (fun c => rect_h c <> 0) (findContours (thresh_of image)) ->
  let contours := findContours (thresh_of image) in
  exists question_cnts,
    filter_contours contours [] = inr question_cnts /\
    question_cnts = List.filter keeps contours /\
    (forall c, In c question_cnts <->
       In c contours /\
       10 <= rect_w c /\ 10 <= rect_h c /\
       (1 # 2 <= inject_Z (rect_w c) / inject_Z (rect_h c))%Q /\
       (inject_Z (rect_w c) / inject_Z (rect_h c) <= 3 # 2)%Q /\
       (50 # 1 < contourArea c)%Q) /\
    process_body image_bytes answer_key =
      score_candidates (thresh_of image) answer_key question_cnts.
Proof.
  intros Hbuf Hdec Hboxes contours.
  exists (List.filter keeps contours).
  assert (Hfilter : filter_contours contours [] = inr (List.filter keeps contours))
    by (by rewrite filter_contours_acc).
  split; [done|]. split; [done|]. split.
  - intros c. by rewrite filter_In, keeps_spec.
  - rewrite process_body_unfold, Hbuf. cbn [Py.bind]. rewrite Hdec.
    cbn [Py.bind]. fold contours. by rewrite Hfilter.
Qed.

(** C2: when fewer than 400 candidates survive the filter, the method
    returns the bubble-detection failure, which reports the count found,
    and no score result.  Bounding boxes have non-zero height, as OpenCV
    returns them. *)
Theorem insufficient_candidates_error (self : OMRProcessor) (image_bytes : pyobj)
    (answer_key : gmap pykey pyval) (nparr : list Byte.byte) (image : Image) :
  np_frombuffer image_bytes = inr nparr ->
  imdecode nparr = inr (Some image) ->
  Forall (fun c => rect_h c <> 0) (findContours (thresh_of image)) ->
  (length (List.filter keeps (findContours (thresh_of image))) < 400)%nat ->
  let found := length (List.filter keeps (findContours (thresh_of image))) in
  snd (process_omr_sheet self image_bytes answer_key) =
    ErrorResult (detection_failed found) /\
  is_score (snd (process_omr_sheet self image_bytes answer_key)) = false.
Proof.
  intros Hbuf Hdec Hboxes Hfew found.
  rewrite (process_few self image_bytes answer_key nparr image) by done.
  by split.
Qed.





(** C4: the code does not do what the claim says.  On a decoded image with
    exactly 400 candidates, evenly spaced or not, line 41 raises
    AttributeError before a candidate is sorted or a question numbered,
    and the method returns the critical error. *)
Theorem grid_resolution_fails (self : OMRProcessor) (image_bytes : pyobj)
    (answer_key : gmap pykey pyval) (nparr : list Byte.byte) (image : Image) :
  np_frombuffer image_bytes = inr nparr ->
  imdecode nparr = inr (Some image) ->
  Forall (fun c => rect_h c <> 0) (findContours (thresh_of image)) ->
  length (List.filter keeps (findContours (thresh_of image))) = 400%nat ->
  process_body image_bytes answer_key = inl AttributeError /\
  snd (process_omr_sheet self image_bytes answer_key) = ErrorResult critical_error.
Proof.
  intros Hbuf Hdec Hboxes Hlen.
  apply (process_many self image_bytes answer_key nparr image); (done || lia).
Qed.

(** C9: the code does not do what the claim says.  With an answer key
    that has no string key every lookup of line 70 would miss, but the
    lookup is never reached: from 400 candidates on line 41 raises
    AttributeError and the method returns the critical error, not a
    score of 0. *)
Theorem integer_keys_run_fails (self : OMRProcessor) (image_bytes : pyobj)
    (answer_key : gmap pykey pyval) (nparr : list Byte.byte) (image : Image) :
  np_frombuffer image_bytes = inr nparr ->
  imdecode nparr = inr (Some image) ->
  Forall (fun c => rect_h c <> 0) (findContours (thresh_of image)) ->
  (400 <= length (List.filter keeps (findContours (thresh_of image))))%nat ->
  (forall s, answer_key !! KStr s = None) ->
  (forall question_num, dict_get answer_key (KStr (str question_num)) = VNone) /\
  process_body image_bytes answer_key = inl AttributeError /\
  snd (process_omr_sheet self image_bytes answer_key) = ErrorResult critical_error.
Proof.
  intros Hbuf Hdec Hboxes Hmany Hkeys. split.
  - intros q. unfold dict_get. by rewrite Hkeys.
  - by apply (process_many self image_bytes answer_key nparr image).
Qed.


End Claims.

(** * The claims on concrete sheets *)

Section Runs.

Import Synthetic.


Lemma sheet_of_boxes (sheet : list Blob) (fill : nat -> nat -> Z) :
  Forall (fun c => rect_h (cv := cv sheet) c <> 0) (sheet_of fill).
Proof.
  apply List.Forall_forall. intros c Hc.
  unfold sheet_of in Hc. rewrite <- in_rev in Hc.
  apply in_flat_map in Hc as (r & _ & Hc).
  apply in_map_iff in Hc as (k & <- & _). discriminate.
Qed.

Lemma filter_contours_spec_witness :
  Forall (fun c => rect_h (cv := cv sheet_mixed) c <> 0) sheet_mixed /\
  filter_contours (cv := cv sheet_mixed) sheet_mixed [] = inr [a_bubble].
Proof.
  assert (Hboxes : Forall (fun c => rect_h (cv := cv sheet_mixed) c <> 0) sheet_mixed)
    by (repeat constructor; discriminate).
  split; [exact Hboxes|].
  destruct (filter_contours_spec (cv := cv sheet_mixed) image_bytes ∅
              [Byte.x89; Byte.x50] sheet_mixed eq_refl eq_refl Hboxes)
    as (question_cnts & Hrun & Hkept & _).
  subst question_cnts. etransitivity; [exact Hrun|]. reflexivity.
Defined.

Lemma insufficient_candidates_error_witness :
  snd (process_omr_sheet (processor sheet_mixed) image_bytes ∅) =
    ErrorResult
      "Bubble detection failed (found 1). The sample images are not compatible with this CV approach.".
Proof.
  assert (Hboxes : Forall (fun c => rect_h (cv := cv sheet_mixed) c <> 0) sheet_mixed)
    by (repeat constructor; discriminate).
  assert (Hfew : (length (List.filter (keeps (cv := cv sheet_mixed)) sheet_mixed) < 400)%nat)
    by (vm_compute; lia).
  exact (proj1 (insufficient_candidates_error (processor sheet_mixed) image_bytes ∅
                  [Byte.x89; Byte.x50] sheet_mixed eq_refl eq_refl Hboxes Hfew)).
Defined.








Lemma sheet_answered_kept :
  length (List.filter (keeps (cv := cv sheet_answered)) sheet_answered) = 400%nat.
Proof. vm_compute. reflexivity. Qed.

Lemma grid_resolution_fails_witness :
  length (List.filter (keeps (cv := cv sheet_answered)) sheet_answered) = 400%nat /\
  snd (process_omr_sheet (processor sheet_answered) image_bytes
         (key_of 100 (fun q => Z.of_nat (q mod 4)))) = ErrorResult critical_error.
Proof.
  split; [exact sheet_answered_kept|].
  exact (proj2 (grid_resolution_fails (cv := cv sheet_answered)
                  (processor sheet_answered) image_bytes _
                  [Byte.x89; Byte.x50] sheet_answered eq_refl eq_refl
                  (sheet_of_boxes sheet_answered _) sheet_answered_kept)).
Defined.

Lemma int_key_of_no_str (n : nat) (answer : nat -> Z) (s : string) :
  int_key_of n answer !! KStr s = None.
Proof.
  unfold int_key_of. induction (seq 1 n) as [|q l IH]; simpl.
  - apply lookup_empty.
  - by rewrite lookup_insert_ne.
Qed.

Lemma integer_keys_run_fails_witness :
  (forall s, int_key_of 100 (fun q => Z.of_nat (q mod 4)) !! KStr s = None) /\
  snd (process_omr_sheet (processor sheet_answered) image_bytes
         (int_key_of 100 (fun q => Z.of_nat (q mod 4)))) = ErrorResult critical_error.
Proof.
  split; [apply int_key_of_no_str|].
  refine (proj2 (proj2 (integer_keys_run_fails (cv := cv sheet_answered)
                  (processor sheet_answered) image_bytes _
                  [Byte.x89; Byte.x50] sheet_answered eq_refl eq_refl
                  (sheet_of_boxes sheet_answered _) _ (int_key_of_no_str 100 _)))).
  vm_compute. lia.
Defined.





End Runs.

(** * Further properties of the method *)

Section Further.

Context `{cv : OpenCV}.

(** X4: on a decodable image the count of contours that pass the filter
    decides the result: below 400 the method returns the detection
    message with the count, and from 400 on it returns the critical
    error, however the candidates lie on the page and whatever the marks
    and the answer key.  Bounding boxes have non-zero height, as OpenCV
    returns them. *)
Theorem critical_error_iff_400_candidates (self : OMRProcessor)
    (image_bytes : pyobj) (answer_key : gmap pykey pyval)
    (nparr : list Byte.byte) (image : Image) :
  np_frombuffer image_bytes = inr nparr ->
  imdecode nparr = inr (Some image) ->
  Forall (fun c => rect_h c <> 0) (findContours (thresh_of image)) ->
  let found := length (List.filter keeps (findContours (thresh_of image))) in
  let r := snd (process_omr_sheet self image_bytes answer_key) in
  (r = ErrorResult critical_error <-> (400 <= found)%nat) /\
  (r = ErrorResult (detection_failed found) <-> (found < 400)%nat).
Proof.
  intros Hbuf Hdec Hboxes found r.
  destruct (Nat.lt_ge_cases found 400) as [Hfew|Hmany].
  - assert (r = ErrorResult (detection_failed found)) as ->
      by (by apply (process_few self image_bytes answer_key nparr image)).
    split; split; try done; lia.
  - assert (r = ErrorResult critical_error) as ->
      by (by apply (process_many self image_bytes answer_key nparr image)).
    split; split; try done; lia.
Qed.

(** X2: the result depends on a decodable image through the count of
    contours that pass the filter only: two images with the same count
    get the same result, whatever their marks and whatever the two answer
    keys.  Bounding boxes have non-zero height, as OpenCV returns
    them. *)
Theorem result_determined_by_candidate_count (self : OMRProcessor)
    (image_bytes image_bytes' : pyobj) (answer_key answer_key' : gmap pykey pyval)
    (nparr nparr' : list Byte.byte) (image image' : Image) :
  np_frombuffer image_bytes = inr nparr ->
  imdecode nparr = inr (Some image) ->
  Forall (fun c => rect_h c <> 0) (findContours (thresh_of image)) ->
  np_frombuffer image_bytes' = inr nparr' ->
  imdecode nparr' = inr (Some image') ->
  Forall (fun c => rect_h c <> 0) (findContours (thresh_of image')) ->
  length (List.filter keeps (findContours (thresh_of image))) =
    length (List.filter keeps (findContours (thresh_of image'))) ->
  snd (process_omr_sheet self image_bytes answer_key) =
    snd (process_omr_sheet self image_bytes' answer_key').
Proof.
  intros Hbuf Hdec Hboxes Hbuf' Hdec' Hboxes' Hcount.
  destruct (Nat.lt_ge_cases
              (length (List.filter keeps (findContours (thresh_of image)))) 400)
    as [Hfew|Hmany].
  - rewrite (process_few self image_bytes answer_key nparr image) by done.
    rewrite (process_few self image_bytes' answer_key' nparr' image')
      by (done || lia).
    by rewrite Hcount.
  - destruct (process_many self image_bytes answer_key nparr image) as [_ ->];
      [done..|].
    destruct (process_many self image_bytes' answer_key' nparr' image') as [_ ->];
      [done|done|done|lia|done].
Qed.


End Further.

Section FurtherRuns.

Import Synthetic.

Lemma critical_error_iff_400_candidates_witness :
  snd (process_omr_sheet (processor sheet_answered) image_bytes ∅) =
    ErrorResult critical_error.
Proof.
  apply (critical_error_iff_400_candidates (cv := cv sheet_answered)
           (processor sheet_answered) image_bytes ∅
           [Byte.x89; Byte.x50] sheet_answered eq_refl eq_refl
           (sheet_of_boxes sheet_answered _)).
  vm_compute. lia.
Defined.

Lemma result_determined_by_candidate_count_witness :
  snd (process_omr_sheet (processor_two sheet_answered sheet_blank) other_bytes
         (key_of 100 (fun q => Z.of_nat (q mod 4)))) =
  snd (process_omr_sheet (processor_two sheet_answered sheet_blank) image_bytes ∅).
Proof.
  apply (result_determined_by_candidate_count
           (cv := cv_two sheet_answered sheet_blank)
           (processor_two sheet_answered sheet_blank) other_bytes image_bytes _ _
           [Byte.x01; Byte.x50] [Byte.x89; Byte.x50] sheet_answered sheet_blank
           eq_refl eq_refl (sheet_of_boxes sheet_blank _)
           eq_refl eq_refl (sheet_of_boxes sheet_answered _)).
  vm_compute. reflexivity.
Defined.



End FurtherRuns.
(** ** The callers *)

Section CallerFacts.

Context `{cv : OpenCV}.

Import Callers.

Variable basename : string -> string.
Variable now_isoformat : nat -> string.
Variable exn_str : exn -> string.
Variable format_2f : float -> string.
Variable np_mean np_median np_std : list float -> float.

Lemma has_key_error (r : result) : has_key "error" r = true.
Proof. by destruct r. Qed.

Lemma process_path (self : OMRProcessor) (path : string)
    (answer_key : gmap pykey pyval) :
  process_omr_sheet self (PyStr path) answer_key =
    (self, ErrorResult critical_error).
Proof. reflexivity. Qed.

Lemma batch_loop_log answer_key progress_callback (n : nat)
    (paths : list string) (start : nat) (processor : OMRProcessor)
    (log : list string) :
  exists lines,
    batch_loop basename now_isoformat exn_str answer_key progress_callback n
      (enumerate_from start paths) (processor, [], log) =
      (processor, [], log ++ lines) /\
    length lines = length paths /\
    (match progress_callback with
     | None => True
     | Some callback => forall i m path, callback i m path = inr tt
     end -> lines = List.map rejected_line paths).
Proof.
  revert start log. induction paths as [|path paths IH]; intros start log.
  { exists []. by rewrite app_nil_r. }
  cbn [enumerate_from batch_loop]. unfold batch_try.
  destruct (match progress_callback with
            | Some callback => callback start n path
            | None => ret tt
            end) as [e|[]] eqn:Hcall; cbn [Py.bind].
  - destruct (IH (S start) (log ++ [String.append "Unexpected error processing "
                 (String.append path (String.append ": " (exn_str e)))]))
      as (lines & -> & Hlen & _).
    eexists (_ :: lines). rewrite <- app_assoc. split; [done|].
    split; [simpl; lia|].
    intros Hquiet. destruct progress_callback as [callback|]; [|done].
    by rewrite Hquiet in Hcall.
  - rewrite process_path. cbn.
    destruct (IH (S start) (log ++ [rejected_line path]))
      as (lines & Hloop & Hlen & Hlines).
    rewrite <- app_assoc in Hloop.
    exists (rejected_line path :: lines). split; [exact Hloop|].
    split; [simpl; lia|].
    intros Hquiet. simpl. f_equal. by apply Hlines.
Qed.

(** X8: the batch helper never returns a result.  It hands the path string
    itself to the method, which answers with the critical error, and it
    keeps a result only when the dict has no 'error' key, which both dict
    shapes have.  Every path gets one line in the log, and with no
    callback, or one that does not raise, that line is the critical error
    for the path. *)
Theorem process_images_batch_returns_nothing (image_paths : list string)
    (answer_key : gmap pykey pyval) (processor : OMRProcessor)
    (progress_callback : option (nat -> nat -> string -> M unit)) :
  let run := process_images_batch basename now_isoformat exn_str
               image_paths answer_key processor progress_callback in
  fst run = [] /\
  length (snd run) = length image_paths /\
  (match progress_callback with
   | None => True
   | Some callback => forall i m path, callback i m path = inr tt
   end -> snd run = List.map rejected_line image_paths).
Proof.
  cbv zeta. unfold process_images_batch, enumerate.
  destruct (batch_loop_log answer_key progress_callback (length image_paths)
              image_paths 0 processor []) as (lines & -> & Hlen & Hlines).
  simpl. done.
Qed.

(** X9: the report built from a batch run is always the 'No results to
    analyze' error. *)
Theorem batch_report_of_batch_run (image_paths : list string)
    (answer_key : gmap pykey pyval) (processor : OMRProcessor)
    (progress_callback : option (nat -> nat -> string -> M unit)) :
  create_batch_report now_isoformat np_mean np_median np_std
    (fst (process_images_batch basename now_isoformat exn_str
            image_paths answer_key processor progress_callback)) =
    inr (ReportError "No results to analyze").
Proof.
  unfold process_images_batch, enumerate.
  destruct (batch_loop_log answer_key progress_callback (length image_paths)
              image_paths 0 processor []) as (lines & -> & _).
  reflexivity.
Qed.

Lemma main_fold (answer_key : gmap pykey pyval)
    (uploaded_files : list (string * list Byte.byte))
    (processor : OMRProcessor) (results : list Entry) (page : list ui_event) :
  processed_image_for_debug processor = None ->
  exists results' page',
    fold_left (main_step format_2f answer_key) uploaded_files
      (processor, results, page) =
      (processor, results ++ results', page ++ page') /\
    length page' = length uploaded_files /\
    Forall (fun event => forall image caption, event <> st_image image caption) page' /\
    List.map entry_result results' =
      List.filter is_score
        (List.map (fun file => snd (process_omr_sheet processor (PyBytes (snd file))
                                      answer_key)) uploaded_files) /\
    List.map filename results' =
      List.map fst
        (List.filter (fun file => is_score (snd (process_omr_sheet processor
                                                   (PyBytes (snd file)) answer_key)))
           uploaded_files).
Proof.
  intros Hnone. revert results page.
  induction uploaded_files as [|[name value] files IH]; intros results page.
  { exists [], []. rewrite !app_nil_r. by repeat split. }
  cbn [fold_left main_step List.map List.filter snd].
  assert (process_omr_sheet processor (PyBytes value) answer_key =
            (processor, snd (process_omr_sheet processor (PyBytes value) answer_key)))
    as Hrun by reflexivity.
  rewrite Hrun. cbn [snd].
  destruct (snd (process_omr_sheet processor (PyBytes value) answer_key))
    as [error|t c p] eqn:Hres; cbn [get_error is_score List.filter].
  - destruct (IH results (page ++ [st_error (String.append "Failed to process "
               (String.append name (String.append ": " error)))]))
      as (results' & page' & -> & Hlen & Hpage & Hres' & Hnames).
    exists results', (st_error (String.append "Failed to process "
               (String.append name (String.append ": " error))) :: page').
    rewrite <- app_assoc. split; [done|]. split; [simpl; lia|].
    split; [by constructor|]. by split.
  - rewrite Hnone.
    assert (match debug processor with
            | true => page ++ [st_success (String.append name
                        (String.append ": Score = " (String.append (format_2f p) "%")))]
            | false => page ++ [st_success (String.append name
                        (String.append ": Score = " (String.append (format_2f p) "%")))]
            end = page ++ [st_success (String.append name
                        (String.append ": Score = " (String.append (format_2f p) "%")))])
      as -> by (by destruct (debug processor)).
    destruct (IH (results ++ [{| entry_result := ScoreResult t c p; filename := name;
                                 processed_at := None |}])
                 (page ++ [st_success (String.append name
                        (String.append ": Score = " (String.append (format_2f p) "%")))]))
      as (results' & page' & -> & Hlen & Hpage & Hres' & Hnames).
    eexists (_ :: results'), (_ :: page').
    rewrite <- !app_assoc. split; [done|]. split; [simpl; lia|].
    split; [by constructor|]. cbn [List.map fst entry_result filename].
    split; by f_equal.
Qed.

Lemma main_fold_errors (answer_key : gmap pykey pyval)
    (uploaded_files : list (string * list Byte.byte))
    (processor : OMRProcessor) (results : list Entry) (page : list ui_event) :
  exists page',
    fold_left (main_step format_2f answer_key) uploaded_files
      (processor, results, page) = (processor, results, page ++ page') /\
    Forall2 (fun file event =>
               exists error,
                 snd (process_omr_sheet processor (PyBytes (snd file)) answer_key) =
                   ErrorResult error /\
                 event = st_error (String.append "Failed to process "
                           (String.append (fst file) (String.append ": " error))))
      uploaded_files page'.
Proof.
  revert page. induction uploaded_files as [|[name value] files IH]; intros page.
  { exists []. rewrite app_nil_r. split; [done|constructor]. }
  cbn [fold_left main_step].
  assert (process_omr_sheet processor (PyBytes value) answer_key =
            (processor, snd (process_omr_sheet processor (PyBytes value) answer_key)))
    as Hrun by reflexivity.
  rewrite Hrun.
  destruct (process_error processor (PyBytes value) answer_key) as (error & Herror).
  rewrite Herror. cbn [get_error].
  destruct (IH (page ++ [st_error (String.append "Failed to process "
             (String.append name (String.append ": " error)))]))
    as (page' & -> & Hpage).
  eexists (_ :: page'). rewrite <- app_assoc. split; [done|].
  constructor; [|exact Hpage]. by exists error.
Qed.

(** X11: [main] never shows a debug image.  The constructor leaves
    [processed_image_for_debug] at None and the method never sets it, so
    the page holds success and error lines only, whatever the debug
    setting. *)
Theorem main_never_shows_debug_image (cached_debug debug_mode : bool)
    (uploaded_files : list (string * list Byte.byte))
    (answer_key : gmap pykey pyval) :
  Forall (fun event => forall image caption, event <> st_image image caption)
    (snd (main_process format_2f cached_debug debug_mode uploaded_files answer_key)).
Proof.
  unfold main_process.
  destruct (main_fold answer_key uploaded_files
              (set_debug (init cached_debug) debug_mode) [] [] eq_refl)
    as (results' & page' & -> & _ & Hpage & _).
  exact Hpage.
Qed.

(** X12: [main] gives every uploaded file one line on the page, and a
    failing sheet does not stop the later ones: the session results are the
    score results of the files the method scored, in upload order, each
    under its file's name. *)
Theorem main_one_outcome_per_file (cached_debug debug_mode : bool)
    (uploaded_files : list (string * list Byte.byte))
    (answer_key : gmap pykey pyval) :
  let processor := set_debug (init cached_debug) debug_mode in
  let run := main_process format_2f cached_debug debug_mode uploaded_files answer_key in
  length (snd run) = length uploaded_files /\
  List.map entry_result (fst run) =
    List.filter is_score
      (List.map (fun file => snd (process_omr_sheet processor (PyBytes (snd file))
                                    answer_key)) uploaded_files) /\
  List.map filename (fst run) =
    List.map fst
      (List.filter (fun file => is_score (snd (process_omr_sheet processor
                                                 (PyBytes (snd file)) answer_key)))
         uploaded_files).
Proof.
  cbv zeta. unfold main_process.
  destruct (main_fold answer_key uploaded_files
              (set_debug (init cached_debug) debug_mode) [] [] eq_refl)
    as (results' & page' & -> & Hlen & _ & Hres & Hnames).
  done.
Qed.

(** X14: [main] records no result.  Whatever the uploaded files and the
    answer key, the session results stay empty and every file gets the
    error line that carries its name and the message the method returned
    for it. *)
Theorem main_records_nothing (cached_debug debug_mode : bool)
    (uploaded_files : list (string * list Byte.byte))
    (answer_key : gmap pykey pyval) :
  let processor := set_debug (init cached_debug) debug_mode in
  let run := main_process format_2f cached_debug debug_mode uploaded_files answer_key in
  fst run = [] /\
  Forall2 (fun file event =>
             exists error,
               snd (process_omr_sheet processor (PyBytes (snd file)) answer_key) =
                 ErrorResult error /\
               event = st_error (String.append "Failed to process "
                         (String.append (fst file) (String.append ": " error))))
    uploaded_files (snd run).
Proof.
  cbv zeta. unfold main_process.
  destruct (main_fold_errors answer_key uploaded_files
              (set_debug (init cached_debug) debug_mode) [] [])
    as (page' & -> & Hpage).
  done.
Qed.

End CallerFacts.

